(** * Mundane: the crate-level [Error] type and [rand_bytes] (src/lib.rs)

    A shallow embedding of the error-unification layer of the crate root.

    - [std::fmt::Formatter] is a string buffer together with its sink: a
      write either appends its text ([Ok]) or is refused by the sink
      ([Err fmt::Error]).  A [String] sink (the one behind [format!] and
      [to_string]) accepts every write.
    - [BoringError] lives in the crate's [boringssl] module, which is not
      part of the source tree; the error layer only uses three things of it:
      its [Display] text, its [Debug] text and [stack_depth()].  They form
      the type class [BoringErrorOps]; every theorem below holds for every
      instance of it. *)

From Stdlib Require Import String Ascii List Arith Lia.
Import ListNotations.
Open Scope string_scope.

(** ** [std::fmt] *)

Module Fmt.

(** [std::fmt::Error] *)
Inductive fmt_Error : Type := FmtError.

(** [Result<T, E>] *)
Inductive result (T E : Type) : Type :=
| Ok : T -> result T E
| Err : E -> result T E.
Arguments Ok {T E} _.
Arguments Err {T E} _.

Definition bind {T U E} (r : result T E) (k : T -> result U E) : result U E :=
  match r with
  | Ok x => k x
  | Err e => Err e
  end.

Notation "x <- r ;; k" := (bind r (fun x => k))
  (at level 61, r at next level, right associativity).

(** A [Formatter]: the text written so far and the sink it writes to. *)
Record Formatter : Type := mkFormatter {
  buf : string;
  sink_accepts : string -> bool
}.

(** [f.write_str(s)] *)
Definition write_str (f : Formatter) (s : string) : result Formatter fmt_Error :=
  if sink_accepts f s
  then Ok (mkFormatter (buf f ++ s) (sink_accepts f))
  else Err FmtError.

(** A formatter writing into a fresh [String]: [String] implements
    [fmt::Write] and never refuses a write. *)
Definition string_formatter : Formatter := mkFormatter "" (fun _ => true).

(** [format!("..", x)] / [x.to_string()]: runs [fmt] into a fresh [String];
    [to_string] panics ([None]) if [fmt] returns an error. *)
Definition format (fmt : Formatter -> result Formatter fmt_Error) : option string :=
  match fmt string_formatter with
  | Ok f => Some (buf f)
  | Err _ => None
  end.

End Fmt.

Import Fmt.

(** The newline character ["\n"]. *)
Definition newline : string := String (ascii_of_nat 10) EmptyString.

(** The number of line breaks in a text (what a line-counting reader of
    the rendered errors sees). *)
Fixpoint count_newlines (s : string) : nat :=
  match s with
  | EmptyString => 0
  | String c s' =>
      (if Ascii.eqb c (ascii_of_nat 10) then 1 else 0) + count_newlines s'
  end.

(** ** The interface of [boringssl::BoringError] used by the crate root *)

Class BoringErrorOps (B : Type) : Type := {
  (** the text its [Display] impl writes *)
  boring_display : B -> string;
  (** the text its [Debug] impl writes *)
  boring_debug : B -> string;
  (** [BoringError::stack_depth] (a [usize]) *)
  stack_depth : B -> nat
}.

(** [<BoringError as Display>::fmt] and [<BoringError as Debug>::fmt]: the
    adapter writes its text to the formatter. *)
Definition boring_display_fmt {B} `{BoringErrorOps B} (e : B) (f : Formatter)
  : result Formatter fmt_Error :=
  write_str f (boring_display e).

Definition boring_debug_fmt {B} `{BoringErrorOps B} (e : B) (f : Formatter)
  : result Formatter fmt_Error :=
  write_str f (boring_debug e).

(** ** [Error] and [ErrorInner] *)

Section ErrorType.

Context {B : Type} `{BoringErrorOps B}.

(** [enum ErrorInner { Mundane(String), Boring(BoringError) }] *)
Inductive ErrorInner : Type :=
| Mundane (s : string)
| Boring (err : B).

(** [pub struct Error(ErrorInner);] *)
Record Error : Type := mkError { inner : ErrorInner }.

(** [Error::new] *)
Definition new (s : string) : Error := mkError (Mundane s).

(** [<Error as From<BoringError>>::from] *)
Definition from (err : B) : Error := mkError (Boring err).

(** [<Error as Display>::fmt] *)
Definition display_fmt (e : Error) (f : Formatter) : result Formatter fmt_Error :=
  match inner e with
  | Mundane err => write_str f err
  | Boring err =>
      f1 <- write_str f "boringssl: " ;;
      boring_display_fmt err f1
  end.

(** [<Error as Debug>::fmt] *)
Definition debug_fmt (e : Error) (f : Formatter) : result Formatter fmt_Error :=
  match inner e with
  | Mundane err => write_str f err
  | Boring err =>
      if Nat.eqb (stack_depth err) 1
      then f1 <- write_str f "boringssl: " ;;
           boring_debug_fmt err f1
      else f1 <- write_str f ("boringssl:" ++ newline) ;;
           boring_debug_fmt err f1
  end.

(** [format!("{}", e)] and [format!("{:?}", e)] *)
Definition display (e : Error) : option string := format (display_fmt e).
Definition debug (e : Error) : option string := format (debug_fmt e).

End ErrorType.

Arguments ErrorInner B : clear implicits.
Arguments Error B : clear implicits.

(** ** [rand_bytes] *)

Section RandBytes.

(** The state the random-byte primitive acts on: the caller's buffer
    ([&mut [u8]]) and the engine's generator state. *)
Variable RngState : Type.
Definition RandState : Type := (list Byte.byte * RngState)%type.

(** [boringssl::rand_bytes], the engine primitive. *)
Variable boringssl_rand_bytes : RandState -> unit * RandState.

(** [pub fn rand_bytes(bytes: &mut [u8]) { boringssl::rand_bytes(bytes); }] *)
Definition rand_bytes (st : RandState) : unit * RandState :=
  let '(_, st') := boringssl_rand_bytes st in (tt, st').

End RandBytes.

(** ** A concrete engine error, for evaluating the definitions

    Modelled from the spec: [boringssl::BoringError] (not in the source
    tree), with its single-line display text, its debug text and its stack
    depth. *)
Record SampleBoringError : Type := mkSample {
  sample_display : string;
  sample_debug : string;
  sample_depth : nat
}.

#[export] Instance SampleBoringErrorOps : BoringErrorOps SampleBoringError := {
  boring_display := sample_display;
  boring_debug := sample_debug;
  stack_depth := sample_depth
}.

Definition frames3 : string :=
  "frame1" ++ newline ++ "frame2" ++ newline ++ "frame3".

(** Scenarios A, B and C of the specification. *)
Example scenario_A :
  display (B := SampleBoringError) (new "key too short") = Some "key too short" /\
  debug (B := SampleBoringError) (new "key too short") = Some "key too short".
Proof. split; reflexivity. Qed.

Example scenario_B :
  display (from (mkSample "bad padding" "bad padding" 1)) = Some "boringssl: bad padding" /\
  debug (from (mkSample "bad padding" "bad padding" 1)) = Some "boringssl: bad padding".
Proof. split; reflexivity. Qed.

Example scenario_C :
  debug (from (mkSample "frame1" frames3 3)) = Some ("boringssl:" ++ newline ++ frames3).
Proof. reflexivity. Qed.

(** ** Properties of [Error] *)

Section ErrorProps.

Context {B : Type} `{BoringErrorOps B}.

(** C1: [Debug] of a wrapped engine error is ["boringssl: "] followed by the
    adapter's debug text when its stack depth is 1, and ["boringssl:"], a
    newline, then the adapter's debug text when its stack depth exceeds 1. *)
Theorem debug_engine_branching (e : B) :
  (stack_depth e = 1 ->
   debug (from e) = Some ("boringssl: " ++ boring_debug e)) /\
  (stack_depth e > 1 ->
   debug (from e) = Some ("boringssl:" ++ newline ++ boring_debug e)).
Proof.
  unfold debug, format, debug_fmt, from; simpl.
  split; intro Hd.
  - rewrite Hd; reflexivity.
  - destruct (Nat.eqb_spec (stack_depth e) 1) as [E | _]; [lia | reflexivity].
Qed.

(** C2: [Display] of a wrapped engine error is ["boringssl: "] followed by
    the adapter's display text. *)
Theorem display_engine_prefix (e : B) :
  display (from e) = Some ("boringssl: " ++ boring_display e).
Proof. reflexivity. Qed.

(** C3: [Display] and [Debug] of an error built from a message are the
    message itself. *)
Theorem local_display_debug_verbatim (m : string) :
  display (B := B) (new m) = Some m /\ debug (B := B) (new m) = Some m.
Proof. split; reflexivity. Qed.

(** C4: converting an engine error yields the [Boring] variant holding
    exactly that error; distinct adapters give distinct errors, and both
    renderings and the stack depth seen through it are the adapter's. *)
Theorem from_wraps_unchanged (e : B) :
  inner (from e) = Boring e /\
  (forall e', from e = from e' -> e = e') /\
  display (from e) = Some ("boringssl: " ++ boring_display e) /\
  (exists err, inner (from e) = Boring err /\
     stack_depth err = stack_depth e /\
     boring_display err = boring_display e /\
     boring_debug err = boring_debug e).
Proof.
  split; [reflexivity|].
  split; [intros e' Heq; injection Heq; auto|].
  split; [reflexivity|].
  exists e; repeat split.
Qed.

(** Writing into a [String] never fails: both [fmt] impls return [Ok] on
    every formatter whose sink accepts every write. *)
Lemma fmt_ok_on_total_sink (e : Error B) (f : Formatter) :
  (forall s, sink_accepts f s = true) ->
  (exists f', display_fmt e f = Ok f') /\ (exists f', debug_fmt e f = Ok f').
Proof.
  intros Hf.
  unfold display_fmt, debug_fmt, boring_display_fmt, boring_debug_fmt, write_str.
  destruct (inner e) as [m | err];
    [| destruct (Nat.eqb (stack_depth err) 1)];
    simpl; rewrite ?Hf; simpl; rewrite ?Hf; eauto.
Qed.

(** C6: constructing an error (from a message or from an engine error) and
    rendering it with [Display] or [Debug] always yields a string; rendering
    never panics, whatever the message or the adapter. *)
Theorem construction_rendering_total (m : string) (b : B) :
  (exists s, display (new m) = Some s) /\ (exists s, debug (new m) = Some s) /\
  (exists s, display (from b) = Some s) /\ (exists s, debug (from b) = Some s).
Proof.
  assert (Hall : forall e : Error B,
    (exists s, display e = Some s) /\ (exists s, debug e = Some s)).
  { intro e. unfold display, debug, format.
    destruct (fmt_ok_on_total_sink e string_formatter (fun _ => eq_refl))
      as [[f1 E1] [f2 E2]].
    rewrite E1, E2; eauto. }
  destruct (Hall (new m)) as [[s1 E1] [s2 E2]].
  destruct (Hall (from b)) as [[s3 E3] [s4 E4]].
  eauto 10.
Qed.

(** C7: every error is either a message error or a wrapped engine error,
    and never both. *)
Theorem error_two_variants (e : Error B) :
  ((exists m, e = new m) \/ (exists b, e = from b)) /\
  (forall m (b : B), new m <> from b).
Proof.
  split.
  - destruct e as [[m | b]]; [left | right]; eexists; reflexivity.
  - intros m b Heq; discriminate Heq.
Qed.

(** C8: [Error::new] builds the [Mundane] variant holding the given string
    unchanged, for every string. *)
Theorem new_builds_local (m : string) :
  inner (new (B := B) m) = Mundane m /\
  (forall m', new (B := B) m = new m' -> m = m').
Proof.
  split; [reflexivity|].
  intros m' Heq; injection Heq; auto.
Qed.

(** C10: whenever the stack depth is not exactly 1 (0 included), [Debug]
    uses the newline form; the inline form appears only at depth 1. *)
Theorem debug_newline_unless_depth_one (e : B) :
  (stack_depth e <> 1 ->
   debug (from e) = Some ("boringssl:" ++ newline ++ boring_debug e)) /\
  (debug (from e) = Some ("boringssl: " ++ boring_debug e) ->
   stack_depth e = 1).
Proof.
  unfold debug, format, debug_fmt, from; simpl.
  destruct (Nat.eqb_spec (stack_depth e) 1) as [E | NE].
  - split; [contradiction | auto].
  - split; [reflexivity|].
    intro Heq. inversion Heq.
Qed.

End ErrorProps.

(** C9: [rand_bytes] has exactly the effect of the engine's [rand_bytes] on
    the buffer and the generator, and returns [()]. *)
Theorem rand_bytes_delegates (RngState : Type)
  (boringssl_rand_bytes : RandState RngState -> unit * RandState RngState)
  (st : RandState RngState) :
  rand_bytes RngState boringssl_rand_bytes st = boringssl_rand_bytes st.
Proof.
  unfold rand_bytes. destruct (boringssl_rand_bytes st) as [[] st']. reflexivity.
Qed.

(** Both branches of C1 evaluated on concrete adapters of depth 1 and 3. *)
Lemma debug_engine_branching_witness :
  sample_depth (mkSample "bad padding" "bad padding" 1) = 1 /\
  debug (from (mkSample "bad padding" "bad padding" 1)) =
    Some ("boringssl: " ++ "bad padding") /\
  sample_depth (mkSample "frame1" frames3 3) > 1 /\
  debug (from (mkSample "frame1" frames3 3)) =
    Some ("boringssl:" ++ newline ++ frames3).
Proof.
  split; [reflexivity|].
  split; [exact (proj1 (debug_engine_branching (mkSample "bad padding" "bad padding" 1)) eq_refl)|].
  split; [simpl; lia|].
  assert (Hd : stack_depth (mkSample "frame1" frames3 3) > 1) by (cbn; lia).
  exact (proj2 (debug_engine_branching (mkSample "frame1" frames3 3)) Hd).
Defined.

(** C10 evaluated on an adapter reporting depth 0. *)
Lemma debug_newline_unless_depth_one_witness :
  sample_depth (mkSample "e" "e" 0) <> 1 /\
  debug (from (mkSample "e" "e" 0)) = Some ("boringssl:" ++ newline ++ "e").
Proof.
  split; [discriminate|].
  assert (Hd : stack_depth (mkSample "e" "e" 0) <> 1) by (cbn; discriminate).
  exact (proj1 (debug_newline_unless_depth_one (mkSample "e" "e" 0)) Hd).
Defined.

(** ** Further properties of the [Display] and [Debug] impls *)

Lemma string_app_assoc (a b c : string) : (a ++ b) ++ c = a ++ (b ++ c).
Proof. induction a as [| x a IH]; simpl; [reflexivity | rewrite IH; reflexivity]. Qed.

Lemma string_app_length (a b : string) :
  String.length (a ++ b) = String.length a + String.length b.
Proof. induction a as [| x a IH]; simpl; auto. Qed.

Lemma count_newlines_app (a b : string) :
  count_newlines (a ++ b) = count_newlines a + count_newlines b.
Proof. induction a as [| x a IH]; simpl; [reflexivity | rewrite IH; lia]. Qed.

Lemma write_str_err (f : Formatter) (s : string) (e : fmt_Error) :
  write_str f s = Err e -> sink_accepts f s = false.
Proof. unfold write_str. destruct (sink_accepts f s); [discriminate | auto]. Qed.

Lemma write_str_ok_sink (f f' : Formatter) (s : string) :
  write_str f s = Ok f' -> sink_accepts f' = sink_accepts f.
Proof.
  unfold write_str. destruct (sink_accepts f s); intro Hw; inversion Hw; reflexivity.
Qed.

Lemma bind_err {T U E} (r : result T E) (k : T -> result U E) (x : E) :
  bind r k = Err x -> r = Err x \/ exists t, r = Ok t /\ k t = Err x.
Proof. destruct r as [t | y]; simpl; intro Hb; [right; eauto | left; congruence]. Qed.

(** An error at the second write of a two-write [fmt] comes from the sink. *)
Lemma two_writes_err (f : Formatter) (p q : string) (x : fmt_Error) :
  (f1 <- write_str f p ;; write_str f1 q) = Err x ->
  exists t, sink_accepts f t = false.
Proof.
  intro Hb. apply bind_err in Hb as [Hp | [f1 [H1 H2]]].
  - exists p. eapply write_str_err; eauto.
  - exists q. apply write_str_ok_sink in H1. rewrite <- H1.
    eapply write_str_err; eauto.
Qed.

Section MoreErrorProps.

Context {B : Type} `{BoringErrorOps B}.

(** Formatting into a formatter that already holds text and accepts every
    write (a [String], for instance) appends exactly the rendering that
    [format!] produces, for [Display] and for [Debug]. *)
Theorem fmt_appends_rendering (e : Error B) (f : Formatter)
  (Hf : forall t, sink_accepts f t = true) :
  (forall s, display e = Some s ->
     display_fmt e f = Ok (mkFormatter (buf f ++ s) (sink_accepts f))) /\
  (forall s, debug e = Some s ->
     debug_fmt e f = Ok (mkFormatter (buf f ++ s) (sink_accepts f))).
Proof.
  unfold display, debug, format, display_fmt, debug_fmt,
    boring_display_fmt, boring_debug_fmt.
  destruct (inner e) as [m | err];
    [| destruct (Nat.eqb (stack_depth err) 1)];
    split; intros s Hs; simpl in Hs; injection Hs as <-;
    unfold write_str; simpl; rewrite ?Hf; simpl; rewrite ?Hf;
    rewrite ?string_app_assoc; reflexivity.
Qed.

(** The [Display] and [Debug] impls never fail on their own: whenever one
    returns [fmt::Error], the formatter's sink refused a write. *)
Theorem fmt_err_only_from_sink (e : Error B) (f : Formatter) :
  (display_fmt e f = Err FmtError -> exists t, sink_accepts f t = false) /\
  (debug_fmt e f = Err FmtError -> exists t, sink_accepts f t = false).
Proof.
  unfold display_fmt, debug_fmt, boring_display_fmt, boring_debug_fmt.
  destruct (inner e) as [m | err];
    [| destruct (Nat.eqb (stack_depth err) 1)];
    split; intro Hb;
    first [ eapply two_writes_err; exact Hb
          | exists m; eapply write_str_err; exact Hb ].
Qed.

(** The rendered text does not tell the two kinds of error apart: every
    engine error renders, under [Display] and under [Debug], exactly like
    some message error (under [Display], the one whose message is
    ["boringssl: "] followed by the adapter's display text). *)
Theorem rendering_kinds_collide (e : B) :
  display (B := B) (new ("boringssl: " ++ boring_display e)) = display (from e) /\
  exists m, debug (B := B) (new m) = debug (from e).
Proof.
  split; [reflexivity|].
  unfold debug, format, debug_fmt; simpl.
  destruct (Nat.eqb (stack_depth e) 1); eexists; reflexivity.
Qed.

(** Both prefixes written before an engine error's text,
    ["boringssl: "] and ["boringssl:\n"], are 11 characters long: the
    [Display] and [Debug] texts of an engine error are the adapter's texts
    lengthened by exactly 11, whatever the stack depth. *)
Theorem engine_render_lengths (e : B) :
  option_map String.length (display (from e)) =
    Some (11 + String.length (boring_display e)) /\
  option_map String.length (debug (from e)) =
    Some (11 + String.length (boring_debug e)).
Proof.
  unfold display, debug, format, display_fmt, debug_fmt; simpl.
  split; [reflexivity|].
  destruct (Nat.eqb (stack_depth e) 1); reflexivity.
Qed.

(** Line breaks: [Display] of an engine error adds none to the adapter's
    display text; [Debug] adds none at stack depth 1 and exactly one at
    every other depth. *)
Theorem engine_render_newlines (e : B) :
  option_map count_newlines (display (from e)) =
    Some (count_newlines (boring_display e)) /\
  option_map count_newlines (debug (from e)) =
    Some (count_newlines (boring_debug e) +
          (if Nat.eqb (stack_depth e) 1 then 0 else 1)).
Proof.
  unfold display, debug, format, display_fmt, debug_fmt; simpl.
  split; [reflexivity|].
  destruct (Nat.eqb (stack_depth e) 1); simpl; f_equal; lia.
Qed.

(** [Display] and [Debug] of an engine error: at any stack depth other
    than 1 they always differ; at depth 1 they coincide exactly when the
    adapter's display and debug texts coincide. *)
Theorem engine_display_vs_debug (e : B) :
  (stack_depth e <> 1 -> display (from e) <> debug (from e)) /\
  (stack_depth e = 1 ->
   (display (from e) = debug (from e) <-> boring_display e = boring_debug e)).
Proof.
  unfold display, debug, format, display_fmt, debug_fmt; simpl.
  split; intro Hd.
  - apply Nat.eqb_neq in Hd. rewrite Hd. intro Heq. inversion Heq.
  - rewrite Hd. simpl. split; intro Heq.
    + inversion Heq; reflexivity.
    + rewrite Heq; reflexivity.
Qed.

End MoreErrorProps.

(** [fmt_appends_rendering] on a formatter already holding ["log: "]. *)
Lemma fmt_appends_rendering_witness :
  (forall t, sink_accepts (mkFormatter "log: " (fun _ => true)) t = true) /\
  display_fmt (from (mkSample "bad padding" "bad padding" 1))
    (mkFormatter "log: " (fun _ => true)) =
  Ok (mkFormatter ("log: " ++ "boringssl: bad padding") (fun _ => true)).
Proof.
  split; [intro t; reflexivity|].
  exact (proj1 (fmt_appends_rendering (from (mkSample "bad padding" "bad padding" 1))
                  (mkFormatter "log: " (fun _ => true)) (fun _ => eq_refl))
               "boringssl: bad padding" eq_refl).
Defined.
